(** * Local database provider of Clowder (providers/localdb.go)

    A shallow embedding of [localDbProvider]: the three resource spec
    builders [makeLocalDB], [makeLocalService], [makeLocalPVC], and the
    orchestrator [CreateDatabase], run against a model of the resource
    store of the cluster.  Go maps are [gmap string string]; a Go struct
    is a record; the store, the random generator and the caller's
    [ClowdApp] object (passed by pointer and mutated) are threaded
    through a small state-and-error monad. *)

From Stdlib Require Import ZArith NArith Lia Ascii String.
From stdpp Require Import base gmap strings list.
Local Open Scope Z_scope.

(* ------------------------------------------------------------------ *)
(** ** Data model *)

(** [types.NamespacedName] *)
Record NamespacedName := mkNN { nn_name : string; nn_namespace : string }.

Global Instance NamespacedName_eq_dec : EqDecision NamespacedName.
Proof. solve_decision. Defined.

(** [crd.ClowdApp], restricted to the fields this file reads:
    [Name], [Namespace], [Labels] and [Spec.Database.Name]. *)
Record ClowdApp := mkApp {
  app_name : string;
  app_namespace : string;
  app_labels : gmap string string;
  app_db_name : string
}.

(** [config.DatabaseConfig] *)
Record DatabaseConfig := mkDbCfg {
  Hostname : string;
  Port : Z;
  Username : string;
  Password : string;
  PgPass : string;
  Name : string
}.

(** [config.AppConfig], the field written by [Configure]. *)
Record AppConfig := mkAppConfig { Database : option DatabaseConfig }.

(** [metav1.ObjectMeta]: name, namespace, labels and owner references
    (the owner is recorded by its name). *)
Record ObjectMeta := mkMeta {
  om_name : string;
  om_namespace : string;
  om_labels : gmap string string;
  om_owners : list string
}.

Definition empty_meta : ObjectMeta := mkMeta "" "" ∅ [].

(** [core.EnvVar], [core.ContainerPort], [core.VolumeMount] *)
Record EnvVar := mkEnv { env_name : string; env_value : string }.
Record ContainerPort := mkCPort { cport_name : string; cport_port : Z }.
Record VolumeMount := mkMount { mount_name : string; mount_path : string }.

(** [core.Probe] with an [Exec] handler. *)
Record Probe := mkProbe {
  probe_command : list string;
  probe_initial_delay : Z;
  probe_timeout : Z
}.

(** [core.Container] *)
Record Container := mkContainer {
  c_name : string;
  c_image : string;
  c_env : list EnvVar;
  c_liveness : option Probe;
  c_readiness : option Probe;
  c_ports : list ContainerPort;
  c_mounts : list VolumeMount
}.

(** [core.Volume] whose source is a PersistentVolumeClaim reference
    ([None] is a nil [PersistentVolumeClaim] pointer). *)
Record Volume := mkVolume { vol_name : string; vol_claim : option string }.

(** [apps.Deployment], the fields the builder touches. *)
Record Deployment := mkDeployment {
  d_meta : ObjectMeta;
  d_replicas : option Z;
  d_selector : option (gmap string string);
  d_volumes : list Volume;
  d_template_labels : gmap string string;
  d_pull_secrets : list string;
  d_containers : list Container
}.

Definition empty_deployment : Deployment :=
  mkDeployment empty_meta None None [] ∅ [] [].

(** [core.ServicePort] and [core.Service] *)
Record ServicePort := mkSPort {
  sport_name : string;
  sport_port : Z;
  sport_protocol : string
}.

Record Service := mkService {
  s_meta : ObjectMeta;
  s_selector : gmap string string;
  s_ports : list ServicePort
}.

Definition empty_service : Service := mkService empty_meta ∅ [].

(** [core.PersistentVolumeAccessMode] *)
Inductive AccessMode := ReadWriteOnce | ReadOnlyMany | ReadWriteMany.

(** [core.PersistentVolumeClaim]; the [Requests] resource list maps a
    resource name to a quantity, kept as its literal ("1Gi"). *)
Record PersistentVolumeClaim := mkPVC {
  pvc_meta : ObjectMeta;
  pvc_access_modes : list AccessMode;
  pvc_requests : gmap string string
}.

Definition empty_pvc : PersistentVolumeClaim := mkPVC empty_meta [] ∅.

(* ------------------------------------------------------------------ *)
(** ** Collaborators of the crd package *)

(** Modelled from the spec: [ClowdApp.GetLabels] (crd package, not in
    the sources).  The spec says the builders mutate "the owner
    descriptor's label mapping in place": the map returned is the app's
    own label map, so a write through it is a write to the app.  The
    write [labels["service"] = "db"] is therefore [set_label]. *)
Definition GetLabels (pp : ClowdApp) : gmap string string := app_labels pp.

Definition set_label (pp : ClowdApp) (k v : string) : ClowdApp :=
  mkApp (app_name pp) (app_namespace pp) (<[k:=v]> (app_labels pp)) (app_db_name pp).

(** Options of [SetObjectMeta]: [crd.Name], [crd.Namespace], [crd.Labels]. *)
Inductive omfunc :=
| OName (s : string)
| ONamespace (s : string)
| OLabels (l : gmap string string).

Definition apply_omfunc (m : ObjectMeta) (o : omfunc) : ObjectMeta :=
  match o with
  | OName s => mkMeta s (om_namespace m) (om_labels m) (om_owners m)
  | ONamespace s => mkMeta (om_name m) s (om_labels m) (om_owners m)
  | OLabels l => mkMeta (om_name m) (om_namespace m) l (om_owners m)
  end.

(** Modelled from the spec: [ClowdApp.SetObjectMeta] (crd package, not
    in the sources), the "stamp owner metadata and labels" collaborator.
    It stamps the owner's identifying metadata (its name, namespace and
    labels, and an owner reference to it) and then applies the options,
    so the name, namespace and labels passed override the owner's; every
    persisted resource lives in the owning application's namespace. *)
Definition SetObjectMeta (pp : ClowdApp) (opts : list omfunc) : ObjectMeta :=
  foldl apply_omfunc
    (mkMeta (app_name pp) (app_namespace pp) (GetLabels pp) [app_name pp]) opts.

(* ------------------------------------------------------------------ *)
(** ** Resource spec builders *)

(** The probe handler command of [makeLocalDB]. *)
Definition probe_command_psql : list string :=
  ["psql"; "-U"; "$(POSTGRESQL_USER)"; "-d"; "$(POSTGRESQL_DATABASE)"; "-c"; "SELECT 1"].

(** [makeLocalDB dd nn pp cfg image]: fills [dd] in place and writes
    the [service] label into [pp]'s label map; both updated objects are
    returned.  Every field of the [Deployment] record is one the builder
    assigns, so the incoming contents of [dd] are overwritten (the same
    holds for the two builders below). *)
Definition makeLocalDB (dd : Deployment) (nn : NamespacedName) (pp : ClowdApp)
    (cfg : DatabaseConfig) (image : string) : ClowdApp * Deployment :=
  let pp := set_label pp "service" "db" in
  let labels := GetLabels pp in
  let meta := SetObjectMeta pp [OName (nn_name nn); OLabels labels] in
  let replicas := Some 1 in
  let selector := Some labels in
  let volumes := [mkVolume (nn_name nn) (Some (nn_name nn))] in
  let template_labels := labels in
  let pull_secrets := ["quay-cloudservices-pull"] in
  let envVars := [mkEnv "POSTGRESQL_USER" (Username cfg);
                  mkEnv "POSTGRESQL_PASSWORD" (Password cfg);
                  mkEnv "PGPASSWORD" (PgPass cfg);
                  mkEnv "POSTGRESQL_DATABASE" (app_db_name pp)] in
  let ports := [mkCPort "database" 5432] in
  let probeHandler := probe_command_psql in
  let livenessProbe := mkProbe probeHandler 15 2 in
  let readinessProbe := mkProbe probeHandler 45 2 in
  let c := mkContainer (nn_name nn) image envVars (Some livenessProbe)
             (Some readinessProbe) ports
             [mkMount (nn_name nn) "/var/lib/pgsql/data"] in
  (pp, mkDeployment meta replicas selector volumes template_labels pull_secrets [c]).

(** [makeLocalService s nn pp] *)
Definition makeLocalService (s : Service) (nn : NamespacedName) (pp : ClowdApp)
    : ClowdApp * Service :=
  let servicePorts := [mkSPort "database" 5432 "TCP"] in
  let pp := set_label pp "service" "db" in
  let labels := GetLabels pp in
  let meta := SetObjectMeta pp [OName (nn_name nn); ONamespace (nn_namespace nn); OLabels labels] in
  (pp, mkService meta labels servicePorts).

(** [makeLocalPVC pvc nn pp] *)
Definition makeLocalPVC (pvc : PersistentVolumeClaim) (nn : NamespacedName)
    (pp : ClowdApp) : ClowdApp * PersistentVolumeClaim :=
  let pp := set_label pp "service" "db" in
  let labels := GetLabels pp in
  let meta := SetObjectMeta pp [OName (nn_name nn); OLabels labels] in
  (pp, mkPVC meta [ReadWriteOnce] {[ "storage" := "1Gi" ]}).

(* ------------------------------------------------------------------ *)
(** ** The resource store, the random generator and the provider *)

(** Kinds of resources the provider reads and writes. *)
Inductive Kind := KDeployment | KService | KPVC.

Global Instance Kind_eq_dec : EqDecision Kind.
Proof. solve_decision. Defined.

Inductive Resource :=
| RDeployment (d : Deployment)
| RService (s : Service)
| RPVC (p : PersistentVolumeClaim).

(** Store round-trips, named for the fault oracle. *)
Inductive Op := OpGet (k : Kind) | OpApply (k : Kind).

Global Instance Op_eq_dec : EqDecision Op.
Proof. solve_decision. Defined.

(** What a run does, in order: fetches, applies, and calls of the
    random generator (with the requested length). *)
Inductive Event :=
| EvGet (k : Kind) (nn : NamespacedName)
| EvApply (k : Kind) (nn : NamespacedName)
| EvRand (n : nat).

(** [localDbProvider]: the database image of the environment
    ([db.Env.Spec.Database.Image]) and the [Config] field. *)
Record localDbProvider := mkProvider {
  db_image : string;
  Config : option DatabaseConfig
}.

(** [NewLocalDBProvider p]: [Config] is left nil. *)
Definition NewLocalDBProvider (image : string) : localDbProvider :=
  mkProvider image None.

(** [Configure c]: [c.Database = db.Config]. *)
Definition Configure (db : localDbProvider) (c : AppConfig) : AppConfig :=
  mkAppConfig (Config db).

Definition Store := list ((Kind * NamespacedName) * Resource).

Fixpoint store_lookup (key : Kind * NamespacedName) (s : Store) : option Resource :=
  match s with
  | [] => None
  | (k', r) :: s' => if decide (key = k') then Some r else store_lookup key s'
  end.

Fixpoint store_put (key : Kind * NamespacedName) (r : Resource) (s : Store) : Store :=
  match s with
  | [] => [(key, r)]
  | (k', r') :: s' =>
      if decide (key = k') then (key, r) :: s' else (k', r') :: store_put key r s'
  end.

(** The world a run sees: the store, the store's failures (an error for
    a round-trip that fails for a reason other than not-found), the
    generator's seed, the trace of events, and the two objects passed by
    pointer, the [ClowdApp] and the provider. *)
Record World := mkWorld {
  w_store : Store;
  w_fault : Op -> option string;
  w_seed : N;
  w_trace : list Event;
  w_app : ClowdApp;
  w_db : localDbProvider
}.

Definition no_faults : Op -> option string := fun _ => None.

(** State and error monad over [World]. *)
Definition M (A : Type) : Type := World -> World * (string + A).

Global Instance M_ret : MRet M := fun A x w => (w, inr x).
Global Instance M_bind : MBind M := fun A B f m w =>
  match m w with
  | (w', inl e) => (w', inl e)
  | (w', inr x) => f x w'
  end.

Definition throw {A} (e : string) : M A := fun w => (w, inl e).
Definition gets {A} (f : World -> A) : M A := fun w => (w, inr (f w)).
Definition modify (f : World -> World) : M unit := fun w => (f w, inr tt).

Definition log (ev : Event) (w : World) : World :=
  mkWorld (w_store w) (w_fault w) (w_seed w) (w_trace w ++ [ev]) (w_app w) (w_db w).
Definition set_store (s : Store) (w : World) : World :=
  mkWorld s (w_fault w) (w_seed w) (w_trace w) (w_app w) (w_db w).
Definition set_seed (n : N) (w : World) : World :=
  mkWorld (w_store w) (w_fault w) n (w_trace w) (w_app w) (w_db w).
Definition set_app (a : ClowdApp) (w : World) : World :=
  mkWorld (w_store w) (w_fault w) (w_seed w) (w_trace w) a (w_db w).

(** Outcome of [db.Client.Get]: found (with the object read), not
    found, or another error. *)
Inductive GetOutcome :=
| GetFound (r : Resource)
| GetNotFound
| GetError (e : string).

(** [db.Client.Get(ctx, nn, &obj)] for a resource of kind [k]. *)
Definition get_outcome (k : Kind) (nn : NamespacedName) (w : World) : GetOutcome :=
  match w_fault w (OpGet k) with
  | Some e => GetError e
  | None =>
      match store_lookup (k, nn) (w_store w) with
      | Some r => GetFound r
      | None => GetNotFound
      end
  end.

Definition Client_Get (k : Kind) (nn : NamespacedName) : M GetOutcome :=
  modify (log (EvGet k nn));;
  w ← gets id;
  mret (get_outcome k nn w).

(** Modelled from the spec: [utils.UpdateOrErr] (utils package, not in
    the sources), the existence resolver: a found resource gives an
    update handle ([true]), not-found a create handle ([false]), any
    other error is propagated. *)
Definition UpdateOrErr (g : GetOutcome) : M bool :=
  match g with
  | GetFound _ => mret true
  | GetNotFound => mret false
  | GetError e => throw e
  end.

(** Modelled from the spec: [utils.Updater.Apply] (utils package, not
    in the sources): update in place for an update handle, create
    otherwise; the store rejects a create of an existing resource and an
    update of a missing one. *)
Definition Apply (update : bool) (k : Kind) (nn : NamespacedName) (r : Resource) : M unit :=
  modify (log (EvApply k nn));;
  w ← gets id;
  match w_fault w (OpApply k) with
  | Some e => throw e
  | None =>
      match store_lookup (k, nn) (w_store w), update with
      | Some _, false => throw "already exists"
      | None, true => throw "not found"
      | _, _ => modify (set_store (store_put (k, nn) r (w_store w)))
      end
  end.

(** Modelled from the spec: [utils.RandString] (utils package, not in
    the sources): a string of the requested length over an alphanumeric
    alphabet.  The characters are drawn from a linear congruential
    generator whose seed is part of the world. *)
Definition alphabet : string :=
  "abcdefghijklmnopqrstuvwxyzABCDEFGHIJKLMNOPQRSTUVWXYZ0123456789".

Definition lcg (s : N) : N := ((s * 1103515245 + 12345) mod 2147483648)%N.

Definition char_at (s : N) : Ascii.ascii :=
  match String.get (N.to_nat (s mod 62)) alphabet with
  | Some c => c
  | None => "a"%char
  end.

Fixpoint rand_chars (n : nat) (s : N) : string * N :=
  match n with
  | O => (EmptyString, s)
  | S k => let '(t, s') := rand_chars k (lcg s) in (String (char_at s) t, s')
  end.

Definition RandString (n : nat) : M string :=
  w ← gets id;
  let '(t, s') := rand_chars n (w_seed w) in
  modify (fun w => log (EvRand n) (set_seed s' w));;
  mret t.

(* ------------------------------------------------------------------ *)
(** ** The orchestrator *)

(** The [NamespacedName] literal of [CreateDatabase]:
    [fmt.Sprintf("%v-db", app.Name)] in [app.Namespace]. *)
Definition nn_of (app : ClowdApp) : NamespacedName :=
  mkNN (String.append (app_name app) "-db") (app_namespace app).

(** The target object after [Get]: the object read when found, the
    zero value otherwise. *)
Definition deployment_of (g : GetOutcome) : Deployment :=
  match g with GetFound (RDeployment d) => d | _ => empty_deployment end.
Definition service_of (g : GetOutcome) : Service :=
  match g with GetFound (RService s) => s | _ => empty_service end.
Definition pvc_of (g : GetOutcome) : PersistentVolumeClaim :=
  match g with GetFound (RPVC p) => p | _ => empty_pvc end.

Definition err_already_created : string := "DB has already been created".

(** [db.CreateDatabase(app)]: the provider and the app are the world's
    [w_db] and [w_app]. *)
Definition CreateDatabase : M unit :=
  db ← gets w_db;
  app ← gets w_app;
  let nn := nn_of app in
  g ← Client_Get KDeployment nn;
  found ← UpdateOrErr g;
  if (found : bool) then throw (A:=unit) err_already_created else
  username ← RandString 16;
  password ← RandString 16;
  pgpass ← RandString 16;
  let cfg := mkDbCfg
               (String.append (nn_name nn) (String.append "." (String.append (nn_namespace nn) ".svc")))
               5432 username password pgpass (app_db_name app) in
  app ← gets w_app;
  let '(app, dd) := makeLocalDB (deployment_of g) nn app cfg (db_image db) in
  modify (set_app app);;
  Apply found KDeployment nn (RDeployment dd);;
  g ← Client_Get KService nn;
  update ← UpdateOrErr g;
  app ← gets w_app;
  let '(app, s) := makeLocalService (service_of g) nn app in
  modify (set_app app);;
  Apply update KService nn (RService s);;
  g ← Client_Get KPVC nn;
  update ← UpdateOrErr g;
  app ← gets w_app;
  let '(app, pvc) := makeLocalPVC (pvc_of g) nn app in
  modify (set_app app);;
  Apply update KPVC nn (RPVC pvc);;
  mret tt.

(** Running [CreateDatabase] from a world. *)
Definition run (w : World) : World * (string + unit) := CreateDatabase w.

(** The events a run adds to the trace. *)
Definition new_events (w : World) : list Event :=
  drop (length (w_trace w)) (w_trace (fst (run w))).

(** The events of a complete run, in order. *)
Definition full_sequence (nn : NamespacedName) : list Event :=
  [EvGet KDeployment nn; EvRand 16; EvRand 16; EvRand 16; EvApply KDeployment nn;
   EvGet KService nn; EvApply KService nn; EvGet KPVC nn; EvApply KPVC nn].

(** Number of calls of the random generator in a trace. *)
Definition is_rand (ev : Event) : bool := match ev with EvRand _ => true | _ => false end.
Definition count_rand (evs : list Event) : nat := length (filter is_rand evs).

(** The store round-trips in the order [CreateDatabase] makes them, and
    how many events of [full_sequence] have happened when each is made. *)
Definition store_ops : list Op :=
  [OpGet KDeployment; OpApply KDeployment; OpGet KService; OpApply KService;
   OpGet KPVC; OpApply KPVC].
Definition stop_points : list nat := [1; 5; 6; 7; 8; 9]%nat.

(** A sample world: the scenario of the spec, an empty store that never
    fails, and a fresh provider. *)
Definition orders_app : ClowdApp :=
  mkApp "orders" "prod" {[ "app" := "orders" ]} "orders_db".

Definition w_orders : World :=
  mkWorld [] no_faults 42 [] orders_app (NewLocalDBProvider "postgres:13").

(** The sample world after a first, successful run. *)
Definition w_orders_after : World := fst (run w_orders).

(** Sample worlds whose store fails one round-trip. *)
Definition failing_at (o : Op) (e : string) : Op -> option string :=
  fun op => if decide (op = o) then Some e else None.

Definition w_orders_failing (o : Op) : World :=
  mkWorld [] (failing_at o "forbidden") 42 [] orders_app (NewLocalDBProvider "postgres:13").

(** A world whose store already holds an unrelated Service. *)
Definition w_other_service : World :=
  mkWorld [((KService, mkNN "other-db" "prod"), RService empty_service)] no_faults 42 []
    orders_app (NewLocalDBProvider "postgres:13").

(** A connection config for the samples. *)
Definition sample_cfg : DatabaseConfig :=
  mkDbCfg "orders-db.prod.svc" 5432 "u" "p" "q" "orders_db".


(** The config a run that finds no Deployment generates: the
    [DatabaseConfig] literal of [CreateDatabase] with the three strings
    drawn from the world's seed. *)
Definition generated_cfg (w : World) : DatabaseConfig :=
  let nn := nn_of (w_app w) in
  let '(u, s1) := rand_chars 16 (w_seed w) in
  let '(p, s2) := rand_chars 16 s1 in
  let '(q, _) := rand_chars 16 s2 in
  mkDbCfg (String.append (nn_name nn) (String.append "." (String.append (nn_namespace nn) ".svc")))
    5432 u p q (app_db_name (w_app w)).

(** The store after a successful run: the Deployment, then the Service,
    then the PVC put at the derived identity. *)
Definition provisioned_store (w : World) : Store :=
  let nn := nn_of (w_app w) in
  let app1 := set_label (w_app w) "service" "db" in
  store_put (KPVC, nn) (RPVC (snd (makeLocalPVC empty_pvc nn app1)))
    (store_put (KService, nn) (RService (snd (makeLocalService empty_service nn app1)))
      (store_put (KDeployment, nn)
         (RDeployment (snd (makeLocalDB empty_deployment nn (w_app w) (generated_cfg w) (db_image (w_db w)))))
         (w_store w))).

(** Kubernetes expands an argument "$(VAR)" of a container command to
    the value of the container's environment variable [VAR]: the name
    such an argument refers to. *)
Definition env_ref (arg : string) : option string :=
  let n := String.length arg in
  if String.prefix "$(" arg && String.eqb (String.substring (n - 1) 1 arg) ")" && Nat.leb 3 n
  then Some (String.substring 2 (n - 3) arg) else None.

(* ------------------------------------------------------------------ *)
(** ** Step lemmas for the monad *)

Arguments rand_chars : simpl never.

Lemma bind_gets {A B} (f : World -> A) (k : A -> M B) w :
  (gets f ≫= k) w = k (f w) w.
Proof. reflexivity. Qed.

Lemma bind_modify {B} (f : World -> World) (k : unit -> M B) w :
  (modify f ≫= k) w = k tt (f w).
Proof. reflexivity. Qed.

Lemma bind_ret {A B} (x : A) (k : A -> M B) w :
  (mret x ≫= k) w = k x w.
Proof. reflexivity. Qed.

Lemma run_ret {A} (x : A) w : (mret x : M A) w = (w, inr x).
Proof. reflexivity. Qed.

Lemma bind_throw {A B} (e : string) (k : A -> M B) w :
  (throw e ≫= k) w = (w, inl e).
Proof. reflexivity. Qed.

Lemma get_outcome_log k nn ev w : get_outcome k nn (log ev w) = get_outcome k nn w.
Proof. reflexivity. Qed.

Lemma bind_Client_Get {B} k nn (c : GetOutcome -> M B) w :
  (Client_Get k nn ≫= c) w = c (get_outcome k nn w) (log (EvGet k nn) w).
Proof. reflexivity. Qed.

Lemma bind_UpdateOrErr {B} g (c : bool -> M B) w :
  (UpdateOrErr g ≫= c) w =
  match g with
  | GetFound _ => c true w
  | GetNotFound => c false w
  | GetError e => (w, inl e)
  end.
Proof. destruct g; reflexivity. Qed.

Lemma bind_RandString {B} n (c : string -> M B) w :
  (RandString n ≫= c) w =
  c (fst (rand_chars n (w_seed w)))
    (log (EvRand n) (set_seed (snd (rand_chars n (w_seed w))) w)).
Proof.
  unfold RandString, mbind, M_bind, gets, modify, mret, M_ret. cbn.
  destruct (rand_chars n (w_seed w)); reflexivity.
Qed.

Lemma bind_Apply {B} u k nn r (c : unit -> M B) w :
  (Apply u k nn r ≫= c) w =
  match w_fault w (OpApply k) with
  | Some e => (log (EvApply k nn) w, inl e)
  | None =>
      match store_lookup (k, nn) (w_store w), u with
      | Some _, false => (log (EvApply k nn) w, inl "already exists")
      | None, true => (log (EvApply k nn) w, inl "not found")
      | _, _ => c tt (set_store (store_put (k, nn) r (w_store w)) (log (EvApply k nn) w))
      end
  end.
Proof.
  unfold Apply, mbind, M_bind, gets, modify, mret, M_ret, throw. cbn.
  destruct (w_fault w (OpApply k)); [reflexivity|].
  destruct (store_lookup (k, nn) (w_store w)), u; reflexivity.
Qed.


(** One step of symbolic execution of [CreateDatabase]. *)
Ltac run_step :=
  first [ rewrite bind_gets | rewrite bind_modify | rewrite bind_ret
        | rewrite bind_throw | rewrite bind_Client_Get | rewrite bind_RandString
        | rewrite bind_UpdateOrErr | rewrite bind_Apply | rewrite run_ret ];
  cbn [w_store w_fault w_seed w_trace w_app w_db log set_store set_seed set_app fst snd];
  try unfold get_outcome.

(** Case split on the next decision of the run: an outcome of the
    store, a failure, or the pair built by a builder. *)
Ltac run_case :=
  match goal with
  | |- context [match w_fault ?w ?o with _ => _ end] => destruct (w_fault w o) eqn:?
  | |- context [match store_lookup ?k ?s with _ => _ end] => destruct (store_lookup k s) eqn:?
  | |- context [match makeLocalDB ?a ?b ?c ?d ?e with _ => _ end] => destruct (makeLocalDB a b c d e) eqn:?
  | |- context [match makeLocalService ?a ?b ?c with _ => _ end] => destruct (makeLocalService a b c) eqn:?
  | |- context [match makeLocalPVC ?a ?b ?c with _ => _ end] => destruct (makeLocalPVC a b c) eqn:?
  end; cbv beta iota.

Ltac run_all := repeat (run_step || run_case).

(** Closing a leaf: the trace of the final world, past the initial one. *)
Lemma drop_trace (tr l : list Event) : drop (length tr) (tr ++ l) = l.
Proof. apply drop_app_length. Qed.

Ltac run_leaf :=
  unfold throw; cbn [fst snd w_trace w_store log set_store set_seed set_app];
  rewrite <- ?app_assoc; rewrite ?drop_trace; cbn [app].

(** The store. *)
Lemma store_lookup_put_eq key r s : store_lookup key (store_put key r s) = Some r.
Proof.
  induction s as [|[k' r'] s IH]; cbn; [by rewrite decide_True|].
  case_decide; cbn; [by rewrite decide_True|]. by rewrite decide_False.
Qed.

Lemma store_lookup_put_ne key key' r s :
  key <> key' -> store_lookup key (store_put key' r s) = store_lookup key s.
Proof.
  intros Hne. induction s as [|[k' r'] s IH]; cbn; [by rewrite decide_False|].
  case_decide as Heq; cbn.
  - subst. rewrite decide_False by done. by rewrite decide_False.
  - case_decide; [done|]. exact IH.
Qed.

(** The final world of a successful run. *)
Lemma run_success_shape (w : World) :
  snd (run w) = inr tt ->
  w_store (fst (run w)) = provisioned_store w /\
  w_app (fst (run w)) = set_label (w_app w) "service" "db" /\
  w_fault (fst (run w)) = w_fault w /\ w_db (fst (run w)) = w_db w.
Proof.
  unfold run, CreateDatabase. run_all; intros Hok; try discriminate.
  all: unfold provisioned_store, generated_cfg.
  all: destruct (rand_chars 16 (w_seed w)) as [u0 s1] eqn:E1; cbn in *;
       destruct (rand_chars 16 s1) as [p0 s2] eqn:E2; cbn in *;
       destruct (rand_chars 16 s2) as [q0 s3] eqn:E3; cbn in *.
  all: unfold makeLocalDB, makeLocalService, makeLocalPVC in *; simplify_eq; cbn.
  all: unfold set_label; cbn; rewrite ?insert_insert_eq; repeat split.
Qed.

Lemma rand_chars_length n s : String.length (fst (rand_chars n s)) = n.
Proof.
  revert s. induction n as [|n IH]; intros s; [reflexivity|].
  change (rand_chars (S n) s)
    with (let '(t, s') := rand_chars n (lcg s) in (String (char_at s) t, s')).
  specialize (IH (lcg s)).
  destruct (rand_chars n (lcg s)). simpl in *. congruence.
Qed.

Lemma generated_cfg_lengths w :
  String.length (Username (generated_cfg w)) = 16%nat /\
  String.length (Password (generated_cfg w)) = 16%nat /\
  String.length (PgPass (generated_cfg w)) = 16%nat.
Proof.
  unfold generated_cfg.
  pose proof (rand_chars_length 16 (w_seed w)) as L1.
  destruct (rand_chars 16 (w_seed w)) as [u s1]. cbn in L1.
  pose proof (rand_chars_length 16 s1) as L2.
  destruct (rand_chars 16 s1) as [p s2]. cbn in L2.
  pose proof (rand_chars_length 16 s2) as L3.
  destruct (rand_chars 16 s2) as [q s3]. cbn in L3. cbn. done.
Qed.

Ltac store_simpl :=
  repeat first [ rewrite store_lookup_put_eq | rewrite store_lookup_put_ne by congruence ].

(** Strings. *)
Lemma string_length_append (s t : string) :
  String.length (String.append s t) = (String.length s + String.length t)%nat.
Proof. induction s as [|a s IH]; simpl; [reflexivity | by rewrite IH]. Qed.

Lemma string_append_inj_r (s1 s2 t : string) :
  String.append s1 t = String.append s2 t -> s1 = s2.
Proof.
  revert s2. induction s1 as [|a s1 IH]; intros [|b s2] H; cbn in H.
  - reflexivity.
  - apply (f_equal String.length) in H. simpl in H. rewrite !string_length_append in H. simpl in H. lia.
  - apply (f_equal String.length) in H. simpl in H. rewrite !string_length_append in H. simpl in H. lia.
  - injection H as -> H. f_equal. by apply IH.
Qed.

(** Sample runs. *)
Example orders_ok : snd (run w_orders) = inr tt.
Proof. vm_compute. reflexivity. Qed.

Example orders_trace : new_events w_orders = full_sequence (mkNN "orders-db" "prod").
Proof. vm_compute. reflexivity. Qed.

Example orders_second_call :
  snd (run (fst (run w_orders))) = inl err_already_created.
Proof. vm_compute. reflexivity. Qed.

(* ------------------------------------------------------------------ *)
(** ** The orchestrator: claims *)

(** C2: when the fetch of the Deployment at the derived identity
    succeeds and finds one, [CreateDatabase] returns the error "DB has
    already been created"; the only thing it did was that fetch: no
    resource applied, the store, the generator's seed and the app are
    unchanged, no credential generated. *)
Theorem CreateDatabase_already_provisioned (w : World) (r : Resource) :
  w_fault w (OpGet KDeployment) = None ->
  store_lookup (KDeployment, nn_of (w_app w)) (w_store w) = Some r ->
  run w = (log (EvGet KDeployment (nn_of (w_app w))) w, inl err_already_created).
Proof.
  intros Hf Hs. unfold run, CreateDatabase. do 3 run_step.
  rewrite Hf, Hs. run_step. reflexivity.
Qed.

Lemma CreateDatabase_already_provisioned_witness :
  let w := w_orders_after in
  let r := default (RDeployment empty_deployment)
             (store_lookup (KDeployment, nn_of (w_app w)) (w_store w)) in
  w_fault w (OpGet KDeployment) = None /\
  store_lookup (KDeployment, nn_of (w_app w)) (w_store w) = Some r /\
  run w = (log (EvGet KDeployment (nn_of (w_app w))) w, inl err_already_created).
Proof.
  intros w r.
  assert (Hf : w_fault w (OpGet KDeployment) = None) by (vm_compute; reflexivity).
  assert (Hs : store_lookup (KDeployment, nn_of (w_app w)) (w_store w) = Some r)
    by (vm_compute; reflexivity).
  split; [exact Hf|]. split; [exact Hs|].
  exact (CreateDatabase_already_provisioned w r Hf Hs).
Defined.


(** C3: the random generator is called exactly three times when the
    first fetch of the Deployment reports it absent and never otherwise;
    when that fetch fails with another error, the run returns that error
    after the fetch alone (no credential, no apply). *)
Theorem CreateDatabase_generates_iff_absent (w : World) :
  count_rand (new_events w) =
    match get_outcome KDeployment (nn_of (w_app w)) w with GetNotFound => 3%nat | _ => 0%nat end
  /\ (forall e, w_fault w (OpGet KDeployment) = Some e ->
        run w = (log (EvGet KDeployment (nn_of (w_app w))) w, inl e)).
Proof.
  split.
  - unfold new_events, run, CreateDatabase, get_outcome. run_all. all: run_leaf; reflexivity.
  - intros e Hf. unfold run, CreateDatabase. do 3 run_step.
    rewrite Hf. reflexivity.
Qed.

Lemma CreateDatabase_generates_iff_absent_witness :
  let w := w_orders_failing (OpGet KDeployment) in
  w_fault w (OpGet KDeployment) = Some "forbidden" /\
  run w = (log (EvGet KDeployment (nn_of (w_app w))) w, inl "forbidden").
Proof.
  intros w.
  assert (Hf : w_fault w (OpGet KDeployment) = Some "forbidden") by (vm_compute; reflexivity).
  split; [exact Hf|].
  exact (proj2 (CreateDatabase_generates_iff_absent w) "forbidden" Hf).
Defined.


(** C4: (1) the events of every run are a prefix of the fixed sequence
    fetch/apply Deployment, then Service, then PVC; a successful run made
    all of them, and a run that stopped early returned an error.
    (2) When the Deployment is absent and the round-trips before the
    [i]-th one succeed, a failure of the [i]-th with error [e] returns
    [e] at once, with no later event.  (3) In particular, when the
    Deployment apply succeeds and the Service apply fails, the run
    returns that error, the Deployment stays in the store, and the PVC is
    neither fetched nor applied (the store's PVC entry is untouched). *)
Theorem CreateDatabase_fail_fast (w : World) :
  (exists k, new_events w = take k (full_sequence (nn_of (w_app w)))
     /\ (snd (run w) = inr tt -> k = 9%nat)
     /\ (k < 9 -> exists e, snd (run w) = inl e)%nat)
  /\ (forall (i : nat) (op : Op) (e : string),
        store_ops !! i = Some op ->
        (forall j op', (j < i)%nat -> store_ops !! j = Some op' -> w_fault w op' = None) ->
        w_fault w op = Some e ->
        store_lookup (KDeployment, nn_of (w_app w)) (w_store w) = None ->
        snd (run w) = inl e /\ new_events w = take (stop_points !!! i) (full_sequence (nn_of (w_app w))))
  /\ (forall e,
        store_lookup (KDeployment, nn_of (w_app w)) (w_store w) = None ->
        w_fault w (OpGet KDeployment) = None -> w_fault w (OpApply KDeployment) = None ->
        w_fault w (OpGet KService) = None -> w_fault w (OpApply KService) = Some e ->
        snd (run w) = inl e
        /\ (exists d, store_lookup (KDeployment, nn_of (w_app w)) (w_store (fst (run w)))
                      = Some (RDeployment d))
        /\ store_lookup (KPVC, nn_of (w_app w)) (w_store (fst (run w)))
           = store_lookup (KPVC, nn_of (w_app w)) (w_store w)
        /\ new_events w = take 7 (full_sequence (nn_of (w_app w)))).
Proof.
  split; [|split].
  - unfold new_events, run, CreateDatabase. run_all.
    all: run_leaf.
    all: first [ exists 1%nat; split; [reflexivity | split; [discriminate | eauto]]
               | exists 5%nat; split; [reflexivity | split; [discriminate | eauto]]
               | exists 6%nat; split; [reflexivity | split; [discriminate | eauto]]
               | exists 7%nat; split; [reflexivity | split; [discriminate | eauto]]
               | exists 8%nat; split; [reflexivity | split; [discriminate | eauto]]
               | exists 9%nat; split; [reflexivity | split; [done | lia]] ].
  - intros i op e Hop Hprev Hf Hs.
    assert (F0 : (0 < i)%nat -> w_fault w (OpGet KDeployment) = None)
      by (intros; by apply (Hprev 0%nat)).
    assert (F1 : (1 < i)%nat -> w_fault w (OpApply KDeployment) = None)
      by (intros; by apply (Hprev 1%nat)).
    assert (F2 : (2 < i)%nat -> w_fault w (OpGet KService) = None)
      by (intros; by apply (Hprev 2%nat)).
    assert (F3 : (3 < i)%nat -> w_fault w (OpApply KService) = None)
      by (intros; by apply (Hprev 3%nat)).
    assert (F4 : (4 < i)%nat -> w_fault w (OpGet KPVC) = None)
      by (intros; by apply (Hprev 4%nat)).
    clear Hprev.
    destruct i as [|[|[|[|[|[|i]]]]]]; cbn in Hop; try discriminate; injection Hop as <-;
      repeat match goal with H : (?a < ?b)%nat -> _ |- _ =>
        first [specialize (H ltac:(lia)) | clear H] end;
      cbn [stop_points lookup_total list_lookup_total];
      unfold new_events, run, CreateDatabase; run_all; try congruence.
    all: run_leaf; split; [congruence | reflexivity].
  - intros e Hs F0 F1 F2 F3. unfold new_events, run, CreateDatabase. run_all; try congruence.
    all: run_leaf.
    all: rewrite ?store_lookup_put_eq, ?store_lookup_put_ne by done.
    all: split; [congruence | split; [eauto | split; reflexivity]].
Qed.

Lemma CreateDatabase_fail_fast_witness :
  let w := w_orders_failing (OpApply KService) in
  store_lookup (KDeployment, nn_of (w_app w)) (w_store w) = None /\
  w_fault w (OpGet KDeployment) = None /\ w_fault w (OpApply KDeployment) = None /\
  w_fault w (OpGet KService) = None /\ w_fault w (OpApply KService) = Some "forbidden" /\
  snd (run w) = inl "forbidden".
Proof.
  intros w.
  assert (H0 : store_lookup (KDeployment, nn_of (w_app w)) (w_store w) = None)
    by (vm_compute; reflexivity).
  assert (H1 : w_fault w (OpGet KDeployment) = None) by (vm_compute; reflexivity).
  assert (H2 : w_fault w (OpApply KDeployment) = None) by (vm_compute; reflexivity).
  assert (H3 : w_fault w (OpGet KService) = None) by (vm_compute; reflexivity).
  assert (H4 : w_fault w (OpApply KService) = Some "forbidden") by (vm_compute; reflexivity).
  repeat (split; [assumption|]).
  exact (proj1 (proj2 (proj2 (CreateDatabase_fail_fast w)) "forbidden" H0 H1 H2 H3 H4)).
Defined.


(** A run whose Service apply fails: the Deployment is in the store,
    the PVC never fetched. *)
Example orders_service_apply_fails :
  let w := w_orders_failing (OpApply KService) in
  snd (run w) = inl "forbidden" /\
  new_events w = take 7 (full_sequence (mkNN "orders-db" "prod")) /\
  map fst (w_store (fst (run w))) = [(KDeployment, mkNN "orders-db" "prod")].
Proof. vm_compute. auto. Qed.

(* ------------------------------------------------------------------ *)
(** ** Provisioning result and identity: claims *)

(** C1 (code_bug): after a successful [CreateDatabase] on a world with no
    store failures and no Deployment yet, the provider is unchanged:
    the generated [DatabaseConfig] is never assigned to [db.Config], so
    [Configure] assigns the provider's previous [Config] (nil for a
    provider built by [NewLocalDBProvider]), not the generated config. *)
Theorem CreateDatabase_Config_not_set (w : World) (c : AppConfig) :
  w_fault w = no_faults ->
  store_lookup (KDeployment, nn_of (w_app w)) (w_store w) = None ->
  snd (run w) = inr tt /\ w_db (fst (run w)) = w_db w /\
  Configure (w_db (fst (run w))) c = mkAppConfig (Config (w_db w)).
Proof.
  intros Hf Hs. unfold run, CreateDatabase. run_all; try congruence.
  all: try match goal with H : w_fault _ _ = Some _ |- _ => rewrite Hf in H; discriminate end.
  all: repeat split.
Qed.

Lemma CreateDatabase_Config_not_set_witness :
  w_fault w_orders = no_faults /\
  store_lookup (KDeployment, nn_of (w_app w_orders)) (w_store w_orders) = None /\
  Configure (w_db (fst (run w_orders))) (mkAppConfig (Some sample_cfg)) = mkAppConfig None.
Proof.
  split; [reflexivity|]. split; [reflexivity|].
  exact (proj2 (proj2 (CreateDatabase_Config_not_set w_orders (mkAppConfig (Some sample_cfg))
                         eq_refl eq_refl))).
Defined.

(** C6: the identity derived from a [ClowdApp] is
    ("<app-name>-db", namespace), and two apps derive the same identity
    exactly when their names and namespaces agree. *)
Theorem nn_of_identity (a1 a2 : ClowdApp) :
  nn_of a1 = mkNN (String.append (app_name a1) "-db") (app_namespace a1) /\
  (nn_of a1 = nn_of a2 <-> app_name a1 = app_name a2 /\ app_namespace a1 = app_namespace a2).
Proof.
  split; [reflexivity|]. unfold nn_of. split.
  - intros H. injection H as H1 H2. split; [by eapply string_append_inj_r | done].
  - intros [-> ->]. reflexivity.
Qed.

(* ------------------------------------------------------------------ *)
(** ** Builders: claims *)

(** C5 (counterexample): [makeLocalDB] does change the label map of the
    app it is given: on the sample app the label [service] appears. *)
Lemma makeLocalDB_writes_owner_labels :
  app_labels (fst (makeLocalDB empty_deployment (nn_of orders_app) orders_app sample_cfg "postgres:13"))
  <> app_labels orders_app.
Proof.
  intros H. apply (f_equal (lookup "service")) in H. vm_compute in H. discriminate.
Qed.

(** C5 (amended): each of the three builders writes [service=db] into
    the app's own label map: the app it leaves behind is the given one
    with that label set and nothing else changed, and a repeated write
    leaves it as it is. *)
Theorem builders_set_service_label (dd : Deployment) (s : Service) (pvc : PersistentVolumeClaim)
    (nn : NamespacedName) (pp : ClowdApp) (cfg : DatabaseConfig) (image : string) :
  fst (makeLocalDB dd nn pp cfg image) = set_label pp "service" "db" /\
  fst (makeLocalService s nn pp) = set_label pp "service" "db" /\
  fst (makeLocalPVC pvc nn pp) = set_label pp "service" "db" /\
  app_labels (set_label pp "service" "db") = <["service":="db"]> (app_labels pp) /\
  set_label (set_label pp "service" "db") "service" "db" = set_label pp "service" "db".
Proof.
  repeat split. unfold set_label; cbn. by rewrite insert_insert_eq.
Qed.

(** C7: the Deployment built by [makeLocalDB]: one replica; selector
    and template labels are the owner's labels plus [service=db]; one
    container with the given image, the four environment variables from
    the config and the app's database name, port 5432 named [database],
    the liveness (15s, 2s) and readiness (45s, 2s) probes running the
    [SELECT 1] command, the volume mounted at the data directory; a
    repeated call, on the app as the first call left it, builds the same
    Deployment. *)
Theorem makeLocalDB_spec (dd dd' : Deployment) (nn : NamespacedName) (pp : ClowdApp)
    (cfg : DatabaseConfig) (image : string) :
  let d := snd (makeLocalDB dd nn pp cfg image) in
  d_replicas d = Some 1 /\
  d_selector d = Some (<["service":="db"]> (app_labels pp)) /\
  d_template_labels d = <["service":="db"]> (app_labels pp) /\
  d_containers d =
    [mkContainer (nn_name nn) image
       [mkEnv "POSTGRESQL_USER" (Username cfg); mkEnv "POSTGRESQL_PASSWORD" (Password cfg);
        mkEnv "PGPASSWORD" (PgPass cfg); mkEnv "POSTGRESQL_DATABASE" (app_db_name pp)]
       (Some (mkProbe probe_command_psql 15 2)) (Some (mkProbe probe_command_psql 45 2))
       [mkCPort "database" 5432] [mkMount (nn_name nn) "/var/lib/pgsql/data"]] /\
  "SELECT 1" ∈ probe_command_psql /\
  snd (makeLocalDB dd' nn (fst (makeLocalDB dd nn pp cfg image)) cfg image) = d.
Proof.
  cbn. repeat split.
  - set_solver.
  - by rewrite insert_insert_eq.
Qed.

(** C8: the Service built by [makeLocalService] has the single port
    [database]/5432/TCP and selects the owner's labels plus [service=db]. *)
Theorem makeLocalService_spec (s : Service) (nn : NamespacedName) (pp : ClowdApp) :
  s_ports (snd (makeLocalService s nn pp)) = [mkSPort "database" 5432 "TCP"] /\
  s_selector (snd (makeLocalService s nn pp)) = <["service":="db"]> (app_labels pp).
Proof. split; reflexivity. Qed.

(** C9: the claim built by [makeLocalPVC] has access modes exactly
    [ReadWriteOnce] and requests exactly 1Gi of storage, whatever the
    app. *)
Theorem makeLocalPVC_spec (pvc : PersistentVolumeClaim) (nn : NamespacedName) (pp : ClowdApp) :
  pvc_access_modes (snd (makeLocalPVC pvc nn pp)) = [ReadWriteOnce] /\
  pvc_requests (snd (makeLocalPVC pvc nn pp)) = {[ "storage" := "1Gi" ]}.
Proof. split; reflexivity. Qed.

(** C10: the Deployment's one volume and its claim, the container's
    name and its one mount all carry the identity's name, which is the
    name stamped onto the PVC built for the same identity. *)
Theorem makeLocalDB_wired_to_pvc (dd : Deployment) (pvc : PersistentVolumeClaim)
    (nn : NamespacedName) (pp pp' : ClowdApp) (cfg : DatabaseConfig) (image : string) :
  let d := snd (makeLocalDB dd nn pp cfg image) in
  d_volumes d = [mkVolume (nn_name nn) (Some (nn_name nn))] /\
  (exists c, d_containers d = [c] /\ c_name c = nn_name nn /\
             map mount_name (c_mounts c) = [nn_name nn]) /\
  om_name (pvc_meta (snd (makeLocalPVC pvc nn pp'))) = nn_name nn.
Proof. cbn. split; [reflexivity|]. split; [eexists; repeat split|reflexivity]. Qed.

(* ------------------------------------------------------------------ *)
(** ** Further properties of [CreateDatabase] and the builders *)

(** A successful run leaves at the derived identity the Deployment built
    from the generated config and the app as given, and the Service and
    PVC built from the app carrying [service=db]. *)
Theorem CreateDatabase_success_provisions (w : World) :
  snd (run w) = inr tt ->
  let nn := nn_of (w_app w) in
  let app1 := set_label (w_app w) "service" "db" in
  store_lookup (KDeployment, nn) (w_store (fst (run w))) =
    Some (RDeployment (snd (makeLocalDB empty_deployment nn (w_app w) (generated_cfg w) (db_image (w_db w))))) /\
  store_lookup (KService, nn) (w_store (fst (run w))) =
    Some (RService (snd (makeLocalService empty_service nn app1))) /\
  store_lookup (KPVC, nn) (w_store (fst (run w))) =
    Some (RPVC (snd (makeLocalPVC empty_pvc nn app1))).
Proof.
  intros Hok. destruct (run_success_shape w Hok) as (-> & _).
  unfold provisioned_store. cbn. store_simpl. auto.
Qed.

Lemma CreateDatabase_success_provisions_witness :
  snd (run w_orders) = inr tt /\
  store_lookup (KPVC, nn_of orders_app) (w_store (fst (run w_orders))) =
    Some (RPVC (snd (makeLocalPVC empty_pvc (nn_of orders_app)
                       (set_label orders_app "service" "db")))).
Proof.
  assert (Hok : snd (run w_orders) = inr tt) by (vm_compute; reflexivity).
  split; [exact Hok|]. exact (proj2 (proj2 (CreateDatabase_success_provisions w_orders Hok))).
Defined.

(** After a successful run the stored Deployment has one container whose
    environment is POSTGRESQL_USER, POSTGRESQL_PASSWORD, PGPASSWORD,
    POSTGRESQL_DATABASE, in that order; the three credentials are
    16-character strings and the last is the app's database name. *)
Theorem CreateDatabase_success_credentials (w : World) :
  snd (run w) = inr tt ->
  exists d c,
    store_lookup (KDeployment, nn_of (w_app w)) (w_store (fst (run w))) = Some (RDeployment d) /\
    d_containers d = [c] /\
    map env_name (c_env c) = ["POSTGRESQL_USER"; "POSTGRESQL_PASSWORD"; "PGPASSWORD"; "POSTGRESQL_DATABASE"] /\
    Forall (fun v => String.length v = 16%nat) (take 3 (map env_value (c_env c))) /\
    last (map env_value (c_env c)) = Some (app_db_name (w_app w)).
Proof.
  intros Hok. destruct (run_success_shape w Hok) as (-> & _).
  unfold provisioned_store. cbn. store_simpl.
  destruct (generated_cfg_lengths w) as (L1 & L2 & L3).
  eexists _, _. split; [reflexivity|]. split; [reflexivity|]. split; [reflexivity|].
  split; [|reflexivity]. cbn. repeat constructor; assumption.
Qed.

Lemma CreateDatabase_success_credentials_witness :
  snd (run w_orders) = inr tt /\
  exists d c,
    store_lookup (KDeployment, nn_of orders_app) (w_store (fst (run w_orders))) = Some (RDeployment d) /\
    d_containers d = [c] /\
    Forall (fun v => String.length v = 16%nat) (take 3 (map env_value (c_env c))).
Proof.
  assert (Hok : snd (run w_orders) = inr tt) by (vm_compute; reflexivity).
  split; [exact Hok|].
  destruct (CreateDatabase_success_credentials w_orders Hok) as (d & c & H1 & H2 & _ & H4 & _).
  exists d, c. auto.
Defined.

(** A run touches the store only at the three entries of the derived
    identity: every other entry is left as it was, whatever the outcome. *)
Theorem CreateDatabase_frame (w : World) (key : Kind * NamespacedName) :
  key <> (KDeployment, nn_of (w_app w)) ->
  key <> (KService, nn_of (w_app w)) ->
  key <> (KPVC, nn_of (w_app w)) ->
  store_lookup key (w_store (fst (run w))) = store_lookup key (w_store w).
Proof.
  intros H1 H2 H3. unfold run, CreateDatabase. run_all.
  all: unfold throw; cbn [fst w_store log set_store set_seed set_app]; store_simpl; reflexivity.
Qed.

Lemma CreateDatabase_frame_witness :
  let key := (KService, mkNN "other-db" "prod") in
  key <> (KDeployment, nn_of (w_app w_other_service)) /\
  key <> (KService, nn_of (w_app w_other_service)) /\
  key <> (KPVC, nn_of (w_app w_other_service)) /\
  store_lookup key (w_store (fst (run w_other_service))) = Some (RService empty_service).
Proof.
  intros key.
  assert (H1 : key <> (KDeployment, nn_of (w_app w_other_service))) by (vm_compute; discriminate).
  assert (H2 : key <> (KService, nn_of (w_app w_other_service))) by (vm_compute; discriminate).
  assert (H3 : key <> (KPVC, nn_of (w_app w_other_service))) by (vm_compute; discriminate).
  split; [exact H1|]. split; [exact H2|]. split; [exact H3|].
  rewrite (CreateDatabase_frame w_other_service key H1 H2 H3). reflexivity.
Defined.

(** A run never overwrites an existing Deployment: when one is stored at
    the derived identity, the run leaves the store and the app as they
    were and does not succeed. *)
Theorem CreateDatabase_keeps_existing_workload (w : World) (r : Resource) :
  store_lookup (KDeployment, nn_of (w_app w)) (w_store w) = Some r ->
  w_store (fst (run w)) = w_store w /\ w_app (fst (run w)) = w_app w /\ snd (run w) <> inr tt.
Proof.
  intros Hs. unfold run, CreateDatabase. run_all; try congruence.
  all: unfold throw; cbn; repeat split; discriminate.
Qed.

Lemma CreateDatabase_keeps_existing_workload_witness :
  let w := w_orders_after in
  let r := default (RDeployment empty_deployment)
             (store_lookup (KDeployment, nn_of (w_app w)) (w_store w)) in
  store_lookup (KDeployment, nn_of (w_app w)) (w_store w) = Some r /\
  w_store (fst (run w)) = w_store w.
Proof.
  intros w r.
  assert (Hs : store_lookup (KDeployment, nn_of (w_app w)) (w_store w) = Some r)
    by (vm_compute; reflexivity).
  split; [exact Hs|]. exact (proj1 (CreateDatabase_keeps_existing_workload w r Hs)).
Defined.



(** Calling [CreateDatabase] again after a successful run, on the world
    it left, fetches the Deployment it stored and returns "DB has
    already been created" without any other effect. *)
Theorem CreateDatabase_second_call (w : World) :
  snd (run w) = inr tt ->
  w_fault w (OpGet KDeployment) = None ->
  run (fst (run w)) =
    (log (EvGet KDeployment (nn_of (w_app w))) (fst (run w)), inl err_already_created).
Proof.
  intros Hok Hf. destruct (run_success_shape w Hok) as (Hst & Happ & Hfl & _).
  remember (fst (run w)) as w'.
  assert (Hnn : nn_of (w_app w') = nn_of (w_app w)) by (rewrite Happ; reflexivity).
  unfold run at 1, CreateDatabase. do 3 run_step.
  rewrite Hnn, Hfl, Hf, Hst. unfold provisioned_store. cbn. store_simpl.
  run_step. reflexivity.
Qed.

Lemma CreateDatabase_second_call_witness :
  snd (run w_orders) = inr tt /\ w_fault w_orders (OpGet KDeployment) = None /\
  snd (run (fst (run w_orders))) = inl err_already_created.
Proof.
  assert (Hok : snd (run w_orders) = inr tt) by (vm_compute; reflexivity).
  split; [exact Hok|]. split; [reflexivity|].
  rewrite (CreateDatabase_second_call w_orders Hok eq_refl). reflexivity.
Defined.

(** After a successful run the stored Service selects exactly the pods of
    the stored Deployment: its selector is the Deployment's selector and
    template labels, the app's labels plus [service=db]. *)
Theorem CreateDatabase_success_selectors (w : World) :
  snd (run w) = inr tt ->
  exists d s,
    store_lookup (KDeployment, nn_of (w_app w)) (w_store (fst (run w))) = Some (RDeployment d) /\
    store_lookup (KService, nn_of (w_app w)) (w_store (fst (run w))) = Some (RService s) /\
    d_selector d = Some (s_selector s) /\ d_template_labels d = s_selector s /\
    s_selector s = <["service":="db"]> (app_labels (w_app w)).
Proof.
  intros Hok. destruct (run_success_shape w Hok) as (-> & _).
  unfold provisioned_store. cbn. store_simpl.
  eexists _, _. do 2 (split; [reflexivity|]). cbn. rewrite insert_insert_eq. auto.
Qed.

Lemma CreateDatabase_success_selectors_witness :
  snd (run w_orders) = inr tt /\
  exists d s,
    store_lookup (KDeployment, nn_of orders_app) (w_store (fst (run w_orders))) = Some (RDeployment d) /\
    store_lookup (KService, nn_of orders_app) (w_store (fst (run w_orders))) = Some (RService s) /\
    d_template_labels d = s_selector s.
Proof.
  assert (Hok : snd (run w_orders) = inr tt) by (vm_compute; reflexivity).
  split; [exact Hok|].
  destruct (CreateDatabase_success_selectors w_orders Hok) as (d & s & H1 & H2 & _ & H4 & _).
  exists d, s. auto.
Defined.

(** The caller's app after a run: when the first fetch reports no
    Deployment its labels gain [service=db] (also when a later step
    fails), otherwise the app is untouched. *)
Theorem CreateDatabase_app_labels (w : World) :
  w_app (fst (run w)) =
    match get_outcome KDeployment (nn_of (w_app w)) w with
    | GetNotFound => set_label (w_app w) "service" "db"
    | _ => w_app w
    end.
Proof.
  unfold get_outcome, run, CreateDatabase. run_all.
  all: unfold throw; cbn [fst w_app log set_store set_seed set_app].
  all: unfold makeLocalDB, makeLocalService, makeLocalPVC in *; simplify_eq.
  all: unfold set_label; cbn; rewrite ?insert_insert_eq; reflexivity.
Qed.

(** After a successful run the three stored resources carry the same
    metadata: name "<app-name>-db", the app's namespace, the app's labels
    plus [service=db], and the app as owner. *)
Theorem CreateDatabase_success_metadata (w : World) :
  snd (run w) = inr tt ->
  let m := mkMeta (app_name (w_app w) +:+ "-db") (app_namespace (w_app w))
             (<["service":="db"]> (app_labels (w_app w))) [app_name (w_app w)] in
  exists d s p,
    store_lookup (KDeployment, nn_of (w_app w)) (w_store (fst (run w))) = Some (RDeployment d) /\
    store_lookup (KService, nn_of (w_app w)) (w_store (fst (run w))) = Some (RService s) /\
    store_lookup (KPVC, nn_of (w_app w)) (w_store (fst (run w))) = Some (RPVC p) /\
    d_meta d = m /\ s_meta s = m /\ pvc_meta p = m.
Proof.
  intros Hok. destruct (run_success_shape w Hok) as (-> & _).
  unfold provisioned_store. cbn. store_simpl.
  eexists _, _, _. do 3 (split; [reflexivity|]). cbn. rewrite insert_insert_eq. auto.
Qed.

Lemma CreateDatabase_success_metadata_witness :
  snd (run w_orders) = inr tt /\
  exists p, store_lookup (KPVC, nn_of orders_app) (w_store (fst (run w_orders))) = Some (RPVC p) /\
            om_name (pvc_meta p) = "orders-db".
Proof.
  assert (Hok : snd (run w_orders) = inr tt) by (vm_compute; reflexivity).
  split; [exact Hok|].
  destruct (CreateDatabase_success_metadata w_orders Hok) as (d & s & p & _ & _ & H3 & _ & _ & H6).
  exists p. split; [exact H3|]. rewrite H6. reflexivity.
Defined.

(** Every "$(VAR)" argument of the liveness and readiness probe commands
    of the container [makeLocalDB] builds names a variable of that
    container's environment. *)
Theorem makeLocalDB_probe_refs_defined (dd : Deployment) (nn : NamespacedName) (pp : ClowdApp)
    (cfg : DatabaseConfig) (image : string) (c : Container) (p : Probe) (arg x : string) :
  c ∈ d_containers (snd (makeLocalDB dd nn pp cfg image)) ->
  c_liveness c = Some p \/ c_readiness c = Some p ->
  arg ∈ probe_command p ->
  env_ref arg = Some x ->
  x ∈ map env_name (c_env c).
Proof.
  cbn. intros Hc Hp Harg Hx.
  apply list_elem_of_singleton in Hc. subst c. cbn in *.
  destruct Hp as [Hp|Hp]; injection Hp as <-; cbn in Harg; unfold probe_command_psql in Harg;
    repeat (apply elem_of_cons in Harg as [->|Harg]; [vm_compute in Hx; try discriminate;
            injection Hx as <-; cbn; set_solver|]);
    apply elem_of_nil in Harg as [].
Qed.

Lemma makeLocalDB_probe_refs_defined_witness :
  let d := snd (makeLocalDB empty_deployment (nn_of orders_app) orders_app sample_cfg "postgres:13") in
  let c := mkContainer "orders-db" "postgres:13"
             [mkEnv "POSTGRESQL_USER" "u"; mkEnv "POSTGRESQL_PASSWORD" "p";
              mkEnv "PGPASSWORD" "q"; mkEnv "POSTGRESQL_DATABASE" "orders_db"]
             (Some (mkProbe probe_command_psql 15 2)) (Some (mkProbe probe_command_psql 45 2))
             [mkCPort "database" 5432] [mkMount "orders-db" "/var/lib/pgsql/data"] in
  c ∈ d_containers d /\ (c_liveness c = Some (mkProbe probe_command_psql 15 2) \/
                          c_readiness c = Some (mkProbe probe_command_psql 15 2)) /\
  "$(POSTGRESQL_USER)" ∈ probe_command (mkProbe probe_command_psql 15 2) /\
  env_ref "$(POSTGRESQL_USER)" = Some "POSTGRESQL_USER" /\
  "POSTGRESQL_USER" ∈ map env_name (c_env c).
Proof.
  intros d c.
  assert (H1 : c ∈ d_containers d) by (cbn; set_solver).
  assert (H2 : c_liveness c = Some (mkProbe probe_command_psql 15 2) \/
               c_readiness c = Some (mkProbe probe_command_psql 15 2)) by (left; reflexivity).
  assert (H3 : "$(POSTGRESQL_USER)" ∈ probe_command (mkProbe probe_command_psql 15 2))
    by (cbn; unfold probe_command_psql; set_solver).
  assert (H4 : env_ref "$(POSTGRESQL_USER)" = Some "POSTGRESQL_USER") by (vm_compute; reflexivity).
  split; [exact H1|]. split; [exact H2|]. split; [exact H3|]. split; [exact H4|].
  exact (makeLocalDB_probe_refs_defined empty_deployment (nn_of orders_app) orders_app sample_cfg
           "postgres:13" c _ _ _ H1 H2 H3 H4).
Defined.

